(** * Alchemy paymaster middleware (packages/core/src/middleware/alchemy-paymaster.ts)

    A shallow embedding of the two exports of the module,
    [withAlchemyGasManager] and [alchemyPaymasterAndDataMiddleware], and of
    the closures they build.  JavaScript objects live in a store and are
    passed by reference, an [async] function is a computation over that
    store which either fulfils or rejects, and the JSON-RPC client of the
    configuration is a function the development quantifies over. *)

From Stdlib Require Import ZArith NArith String Ascii.
From stdpp Require Import base option gmap strings list fin_maps.

Local Open Scope Z_scope.
Local Open Scope string_scope.

(** ** Values, objects and errors *)

(** viem's [Hex] and [Address] are template-literal string types. *)
Definition Hex : Type := string.
Definition Address : Type := string.

Inductive ErrorKind : Type :=
| TransportError
| MalformedResponse
| ServiceError
| ResolutionError
| TypeError.

(** What a rejected promise carries: the kind of the error and its message. *)
Record Error : Type := mkError { kind : ErrorKind; message : string }.

(** The outcome of awaiting a promise. *)
Inductive Settled (A : Type) : Type :=
| Fulfilled (a : A)
| Rejected (e : Error).
Arguments Fulfilled {A} a.
Arguments Rejected {A} e.

(** The values a field of a user operation can hold.  A field of a
    [Deferrable] struct is a literal or a promise of one; a promise is
    represented by what awaiting it gives. *)
Inductive Value : Type :=
| VUndefined
| VString (s : string)
| VBigInt (n : Z)
| VNumber (n : Z)
| VPending (v : Value)
| VFailing (e : Error).

(** A plain JavaScript object: own enumerable properties by name. *)
Abbreviation Obj := (gmap string Value).

(** [o.k]: reading a property that is absent gives [undefined]. *)
Definition getProp (o : Obj) (k : string) : Value := default VUndefined (o !! k).

(** [{...a, ...b}]: the properties of [a], then those of [b] over them. *)
Definition spread (a b : Obj) : Obj := b ∪ a.

(** ** The JSON-RPC client *)

(** The two request shapes of [ClientWithAlchemyMethods]: the method name is
    the constructor, its arguments are the fields of [params[0]]. *)
Inductive RpcArgs : Type :=
| alchemy_requestPaymasterAndData
    (policy : string) (entry : Address) (userOperation : Obj)
| alchemy_requestGasAndPaymasterAndData
    (policy : string) (entry : Address) (userOperation : Obj) (dummySignature : Hex).

Record Chain : Type := { id : Z }.

(** [request] answers a call given the calls sent before it: the remote
    service and the transport are outside this module, the answer is
    whatever they give. *)
Record PublicErc4337Client : Type := {
  chain : Chain;
  request : list RpcArgs -> RpcArgs -> Settled Obj
}.

Record AlchemyPaymasterConfig : Type := {
  policyId : string;
  entryPoint : Address;
  provider : PublicErc4337Client
}.

(** ** The store *)

Abbreviation loc := positive.

(** What a reference points to: a user-operation record or a configuration. *)
Inductive Cell : Type :=
| CObject (o : Obj)
| CConfig (c : AlchemyPaymasterConfig).

Record World : Type := mkWorld {
  heap : gmap loc Cell;
  sent : list RpcArgs
}.

(** ** Asynchronous computations *)

Definition Promise (A : Type) : Type := World -> Settled A * World.

Definition ret {A} (a : A) : Promise A := fun w => (Fulfilled a, w).

Definition throw {A} (e : Error) : Promise A := fun w => (Rejected e, w).

Definition bind {A B} (m : Promise A) (k : A -> Promise B) : Promise B :=
  fun w =>
    match m w with
    | (Fulfilled a, w') => k a w'
    | (Rejected e, w') => (Rejected e, w')
    end.

Declare Scope promise_scope.
Delimit Scope promise_scope with promise.
Notation "'let*' x := m 'in' k" := (bind m (fun x => k))
  (at level 10, x name, m at level 100, k at level 200) : promise_scope.
Local Open Scope promise_scope.

(** [await p] for a promise whose outcome is known. *)
Definition await {A} (p : Settled A) : Promise A := fun w => (p, w).

Definition danglingReference : Error :=
  mkError TypeError "Cannot read properties of undefined".

(** Reading the own properties of the object behind a reference. *)
Definition readObject (l : loc) : Promise Obj :=
  fun w =>
    match heap w !! l with
    | Some (CObject o) => ret o w
    | _ => throw danglingReference w
    end.

(** Reading the fields of the configuration behind a reference. *)
Definition readConfig (l : loc) : Promise AlchemyPaymasterConfig :=
  fun w =>
    match heap w !! l with
    | Some (CConfig c) => ret c w
    | _ => throw danglingReference w
    end.

(** An object literal: a new object at a reference not in use. *)
Definition newObject (o : Obj) : Promise loc :=
  fun w =>
    let l := fresh (dom (heap w)) in
    (Fulfilled l, mkWorld (<[l := CObject o]> (heap w)) (sent w)).

(** [o.k = v] on the object behind a reference, as a stage that runs
    between two middlewares may do. *)
Definition assignProp (l : loc) (k : string) (v : Value) (w : World) : World :=
  match heap w !! l with
  | Some (CObject o) => mkWorld (<[l := CObject (<[k := v]> o)]> (heap w)) (sent w)
  | _ => w
  end.

(** The userOperation a call carries. *)
Definition userOperationOf (args : RpcArgs) : Obj :=
  match args with
  | alchemy_requestPaymasterAndData _ _ u => u
  | alchemy_requestGasAndPaymasterAndData _ _ u _ => u
  end.

(** [await client.request(args)]: the call is sent, the client answers. *)
Definition sendRequest (client : PublicErc4337Client) (args : RpcArgs) : Promise Obj :=
  fun w => (request client (sent w) args, mkWorld (heap w) (sent w ++ [args])).

(** ** The provider and its middleware slots *)

Definition Middleware : Type := loc -> Promise loc.

Record BaseSmartContractAccount : Type := { getDummySignature : Hex }.

Record SmartAccountProvider : Type := mkProvider {
  account : BaseSmartContractAccount;
  gasEstimator : Middleware;
  feeDataGetter : Middleware;
  customMiddleware : option Middleware
}.

(** Modelled from the spec: the slot-installation operations of
    provider/base.js, which is not part of the sources at hand.  Each slot
    holds one function and installing a function replaces the one held. *)
Definition withGasEstimator (override : Middleware) (p : SmartAccountProvider)
  : SmartAccountProvider :=
  mkProvider (account p) override (feeDataGetter p) (customMiddleware p).

Definition withFeeDataGetter (override : Middleware) (p : SmartAccountProvider)
  : SmartAccountProvider :=
  mkProvider (account p) (gasEstimator p) override (customMiddleware p).

Definition withCustomMiddleware (override : Middleware) (p : SmartAccountProvider)
  : SmartAccountProvider :=
  mkProvider (account p) (gasEstimator p) (feeDataGetter p) (Some override).

Record PaymasterMiddlewares : Type := {
  dummyPaymasterDataMiddleware : Middleware;
  paymasterDataMiddleware : Middleware
}.

(** ** The module *)

Section AlchemyPaymaster.

(** The two helpers imported from utils.js are not part of the sources at
    hand; the middleware is embedded over any pair of them.
    [resolveProperties] awaits the deferred fields of a struct and
    [deepHexlify] gives the hex-encoded projection of the resolved record. *)
Variable resolveProperties : Obj -> Settled Obj.
Variable deepHexlify : Obj -> Obj.

Definition knownChainPlaceholder : Hex :=
  "0x4Fd9098af9ddcB41DA48A1d78F91F1398965addcfffffffffffffffffffffffffffffffffffffffffffffffffffffffffffffffffffffffffffffffffffffffffffffff0000000000000000000000000000000007aaaaaaaaaaaaaaaaaaaaaaaaaaaaaaaaaaaaaaaaaaaaaaaaaaaaaaaaaaaaaaa1c".

Definition defaultPlaceholder : Hex :=
  "0xc03aac639bb21233e0139381970328db8bceeb67fffffffffffffffffffffffffffffffffffffffffffffffffffffffffffffffffffffffffffffffffffffffffffffff0000000000000000000000000000000007aaaaaaaaaaaaaaaaaaaaaaaaaaaaaaaaaaaaaaaaaaaaaaaaaaaaaaaaaaaaaaa1c".

(** [withAlchemyGasManager(provider, config)]; [config] is the reference
    the closure captures, read when the middleware runs. *)
Definition withAlchemyGasManager (provider_ : SmartAccountProvider) (config : loc)
  : SmartAccountProvider :=
  withCustomMiddleware
    (fun struct =>
       let* cfg := readConfig config in
       let* fields := readObject struct in
       let* resolved := await (resolveProperties fields) in
       let* result :=
         sendRequest (provider cfg)
           (alchemy_requestGasAndPaymasterAndData
              (policyId cfg) (entryPoint cfg)
              (deepHexlify resolved)
              (getDummySignature (account provider_))) in
       let* fields' := readObject struct in
       newObject (spread fields' result))
    (withFeeDataGetter
       (fun _ =>
          newObject
            (<["maxFeePerGas" := VBigInt 0]>
               (<["maxPriorityFeePerGas" := VBigInt 0]> ∅)))
       (withGasEstimator
          (fun _ =>
             newObject
               (<["callGasLimit" := VBigInt 0]>
                  (<["preVerificationGas" := VBigInt 0]>
                     (<["verificationGasLimit" := VBigInt 0]> ∅))))
          provider_)).

(** [alchemyPaymasterAndDataMiddleware(config)]. *)
Definition alchemyPaymasterAndDataMiddleware (config : loc) : PaymasterMiddlewares :=
  {| dummyPaymasterDataMiddleware := fun _struct =>
       let* cfg := readConfig config in
       match id (chain (provider cfg)) with
       | 1 | 137 | 42161 =>
           newObject {[ "paymasterAndData" := VString knownChainPlaceholder ]}
       | _ =>
           newObject {[ "paymasterAndData" := VString defaultPlaceholder ]}
       end;
     paymasterDataMiddleware := fun struct =>
       let* cfg := readConfig config in
       let* fields := readObject struct in
       let* resolved := await (resolveProperties fields) in
       let* result :=
         sendRequest (provider cfg)
           (alchemy_requestPaymasterAndData
              (policyId cfg) (entryPoint cfg) (deepHexlify resolved)) in
       let paymasterAndData := getProp result "paymasterAndData" in
       newObject {[ "paymasterAndData" := paymasterAndData ]} |}.

End AlchemyPaymaster.

(** ** The helpers of utils.js *)

Definition hexDigit (d : N) : ascii :=
  default "0"%char (list_ascii_of_string "0123456789abcdef" !! N.to_nat d).

Fixpoint hexDigits (fuel : nat) (n : N) (acc : string) : string :=
  match fuel with
  | O => acc
  | S fuel' =>
      let acc' := String (hexDigit (n mod 16)) acc in
      if (n / 16 =? 0)%N then acc' else hexDigits fuel' (n / 16) acc'
  end.

Definition toHex (n : Z) : Hex :=
  String.append "0x" (hexDigits (S (N.size_nat (Z.to_N n))) (Z.to_N n) "").

(** What awaiting a field gives. *)
Fixpoint resolveValue (v : Value) : Settled Value :=
  match v with
  | VPending v' => resolveValue v'
  | VFailing e => Rejected e
  | _ => Fulfilled v
  end.

(** Modelled from the spec: resolveProperties of utils.js, which is not part
    of the sources at hand (spec 4.1).  Every field is awaited; the record of
    the plain values is returned, and the call fails when the resolution of a
    field fails. *)
Definition utils_resolveProperties (o : Obj) : Settled Obj :=
  map_fold
    (fun k v acc =>
       match acc, resolveValue v with
       | Fulfilled r, Fulfilled v' => Fulfilled (<[k := v']> r)
       | Rejected e, _ => Rejected e
       | Fulfilled _, Rejected e => Rejected e
       end)
    (Fulfilled ∅) o.

Definition hexlifyValue (v : Value) : Value :=
  match v with
  | VBigInt n => VString (toHex n)
  | VNumber n => VString (toHex n)
  | _ => v
  end.

(** Modelled from the spec: deepHexlify of utils.js, which is not part of the
    sources at hand (spec 4.2).  Numeric fields become 0x-prefixed lowercase
    hexadecimal strings, fields that are strings already pass through. *)
Definition utils_deepHexlify (o : Obj) : Obj := hexlifyValue <$> o.

(** ** A sample run *)

Module Sample.

Definition gasAndPaymasterResult : Obj :=
  <["paymasterAndData" := VString "0xabc"]>
    (<["callGasLimit" := VString "0x3e8"]>
       (<["verificationGasLimit" := VString "0x7d0"]>
          (<["preVerificationGas" := VString "0xbb8"]>
             (<["maxFeePerGas" := VString "0x10"]>
                (<["maxPriorityFeePerGas" := VString "0x2"]> ∅))))).

Definition client (chainId : Z) : PublicErc4337Client :=
  {| chain := {| id := chainId |};
     request := fun _ args =>
       match args with
       | alchemy_requestPaymasterAndData _ _ _ =>
           Fulfilled {[ "paymasterAndData" := VString "0xabc" ]}
       | alchemy_requestGasAndPaymasterAndData _ _ _ _ =>
           Fulfilled gasAndPaymasterResult
       end |}.

Definition timedOut : Error := mkError TransportError "request timed out".

Definition failingClient : PublicErc4337Client :=
  {| chain := {| id := 10 |};
     request := fun _ _ => Rejected timedOut |}.

Definition config (c : PublicErc4337Client) : AlchemyPaymasterConfig :=
  {| policyId := "policy-1";
     entryPoint := "0x5FF137D4b0FDCD49DcA30c7CF57E578a026d2789";
     provider := c |}.

(** A struct after the zeroing gas and fee stages ran, with a deferred nonce. *)
Definition fields : Obj :=
  <["sender" := VString "0x00000000000000000000000000000000000000aa"]>
    (<["nonce" := VPending (VBigInt 7)]>
       (<["callGasLimit" := VBigInt 0]>
          (<["maxFeePerGas" := VBigInt 0]>
             (<["paymasterAndData" := VString "0x"]> ∅)))).

Definition otherFields : Obj :=
  <["sender" := VString "0x00000000000000000000000000000000000000bb"]>
    (<["nonce" := VBigInt 255]> ∅).

(** The configuration at reference 1, the struct at reference 2. *)
Definition world (c : PublicErc4337Client) (o : Obj) : World :=
  mkWorld (<[1%positive := CConfig (config c)]> (<[2%positive := CObject o]> ∅)) [].

Definition smartAccountProvider : SmartAccountProvider :=
  {| account := {| getDummySignature := "0xfffffffffffffffffffffffffffffff0" |};
     gasEstimator := fun l => ret l;
     feeDataGetter := fun l => ret l;
     customMiddleware := None |}.

(** What [utils_resolveProperties] makes of [fields]. *)
Definition resolved : Obj :=
  <["sender" := VString "0x00000000000000000000000000000000000000aa"]>
    (<["nonce" := VBigInt 7]>
       (<["callGasLimit" := VBigInt 0]>
          (<["maxFeePerGas" := VBigInt 0]>
             (<["paymasterAndData" := VString "0x"]> ∅)))).

Definition paymaster : PaymasterMiddlewares :=
  alchemyPaymasterAndDataMiddleware utils_resolveProperties utils_deepHexlify 1%positive.

Definition gasManager : SmartAccountProvider :=
  withAlchemyGasManager utils_resolveProperties utils_deepHexlify
    smartAccountProvider 1%positive.

(** The paymasterAndData the dummy middleware returns under a chain id. *)
Definition dummyPlaceholder (chainId : Z) : option Value :=
  match dummyPaymasterDataMiddleware paymaster 2%positive (world (client chainId) fields) with
  | (Fulfilled out, w') =>
      match heap w' !! out with
      | Some (CObject o) => o !! "paymasterAndData"
      | _ => None
      end
  | (Rejected _, _) => None
  end.

End Sample.

(** ** Edge runs *)

Module Edge.

Definition brokenNonce : Error := mkError ResolutionError "nonce lookup failed".

(** A struct whose deferred nonce fails to resolve. *)
Definition failingFields : Obj :=
  <["sender" := VString "0x00000000000000000000000000000000000000aa"]>
    (<["nonce" := VFailing brokenNonce]>
       (<["paymasterAndData" := VString "0x"]> ∅)).

(** A client whose responses are fulfilled and hold no field at all. *)
Definition sparseClient : PublicErc4337Client :=
  {| chain := {| id := 1 |};
     request := fun _ _ => Fulfilled ∅ |}.

(** A client that answers the first call it sees with one result and every
    later call with another. *)
Definition firstResult : Obj :=
  <["callGasLimit" := VString "0x3e8"]> (<["maxFeePerGas" := VString "0x10"]> ∅).

Definition laterResult : Obj :=
  <["callGasLimit" := VString "0x7d0"]> (<["paymasterAndData" := VString "0xabc"]> ∅).

Definition changingClient : PublicErc4337Client :=
  {| chain := {| id := 1 |};
     request := fun earlier _ =>
       match earlier with
       | [] => Fulfilled firstResult
       | _ :: _ => Fulfilled laterResult
       end |}.

End Edge.

(** ** Runs that leave the store intact *)

(** A run from [w] with outcome [r] leaves the store intact when every cell
    of [w] is the same afterwards, a reference it returns was not in use in
    [w] and holds an object, and a run that rejects leaves the store as it
    was. *)
Definition leavesStoreIntact_at (w : World) (r : Settled loc * World) : Prop :=
  (forall (l : loc) (c : Cell), heap w !! l = Some c -> heap r.2 !! l = Some c)
  /\ match r.1 with
     | Fulfilled out =>
         heap w !! out = None /\ exists o : Obj, heap r.2 !! out = Some (CObject o)
     | Rejected _ => heap r.2 = heap w
     end.

Definition leavesStoreIntact (m : Promise loc) : Prop :=
  forall w : World, leavesStoreIntact_at w (m w).

(** * Properties *)

Example toHex_samples : toHex 1000 = "0x3e8" /\ toHex 0 = "0x0" /\ toHex 255 = "0xff".
Proof. repeat split; reflexivity. Qed.

(** ** The store under allocation *)

Lemma fresh_reference_unused (h : gmap loc Cell) : h !! fresh (dom h) = None.
Proof. apply not_elem_of_dom, is_fresh. Qed.

Lemma newObject_lookup (o : Obj) (w : World) :
  heap (newObject o w).2 !! fresh (dom (heap w)) = Some (CObject o).
Proof. cbn. apply lookup_insert_eq. Qed.

Lemma newObject_frame (o : Obj) (w : World) (l : loc) (c : Cell) :
  heap w !! l = Some c -> heap (newObject o w).2 !! l = Some c.
Proof.
  intros Hl. cbn. rewrite lookup_insert_ne; [done |].
  intros <-. by rewrite fresh_reference_unused in Hl.
Qed.

(** ** Shallow merge *)

Lemma spread_override (a b : Obj) (k : string) (v : Value) :
  b !! k = Some v -> spread a b !! k = Some v.
Proof. intros Hk. unfold spread. by apply lookup_union_Some_l. Qed.

Lemma spread_keep (a b : Obj) (k : string) :
  b !! k = None -> spread a b !! k = a !! k.
Proof. intros Hk. unfold spread. by apply lookup_union_r. Qed.

(** The chain-id dispatch of the dummy middleware, as a decision. *)
Lemma switch_chain_id {A} (i : Z) (a b : A) :
  match i with 1 | 137 | 42161 => a | _ => b end =
  if decide (i = 1 ∨ i = 137 ∨ i = 42161) then a else b.
Proof.
  case_decide as H.
  - by destruct H as [->|[->| ->]].
  - destruct i as [|p|p]; try done.
    repeat (first [ done | destruct p as [p|p|]; [| |]; try done ]);
    exfalso; apply H; auto.
Qed.

(** ** What a run leaves in the store *)

(** A run that ends in an object literal. *)
Lemma newObject_intact (o : Obj) (h : gmap loc Cell) (s : list RpcArgs) (w : World) :
  heap w = h -> leavesStoreIntact_at w (newObject o (mkWorld h s)).
Proof.
  intros <-. split.
  - intros l c Hl. by apply (newObject_frame o (mkWorld (heap w) s)).
  - cbn. split; [apply fresh_reference_unused |].
    exists o. apply lookup_insert_eq.
Qed.

Lemma rejected_intact (e : Error) (s : list RpcArgs) (w : World) :
  leavesStoreIntact_at w (@Rejected loc e, mkWorld (heap w) s).
Proof. by split. Qed.

Lemma rejected_intact_same (e : Error) (w : World) :
  leavesStoreIntact_at w (@Rejected loc e, w).
Proof. by split. Qed.

Ltac run_promise :=
  cbn [withAlchemyGasManager alchemyPaymasterAndDataMiddleware
       withCustomMiddleware withFeeDataGetter withGasEstimator
       customMiddleware gasEstimator feeDataGetter
       dummyPaymasterDataMiddleware paymasterDataMiddleware];
  unfold bind, readConfig, readObject, await, sendRequest, ret, throw;
  cbn [heap sent].

Section Properties.

Variable resolveProperties : Obj -> Settled Obj.
Variable deepHexlify : Obj -> Obj.

Local Abbreviation gasManager := (withAlchemyGasManager resolveProperties deepHexlify).
Local Abbreviation paymaster := (alchemyPaymasterAndDataMiddleware resolveProperties deepHexlify).

(** C1: on a fulfilled alchemy_requestGasAndPaymasterAndData call, the
    custom middleware installed by withAlchemyGasManager returns a record
    that is the input struct with the remote result spread over it: every
    field of the remote result holds the remote value in the output, and
    every field absent from the remote result is as in the input struct. *)
Theorem custom_middleware_merges_result
    (p : SmartAccountProvider) (config struct : loc) (w : World)
    (cfg : AlchemyPaymasterConfig) (fields resolved result : Obj) :
  heap w !! config = Some (CConfig cfg) ->
  heap w !! struct = Some (CObject fields) ->
  resolveProperties fields = Fulfilled resolved ->
  request (provider cfg) (sent w)
    (alchemy_requestGasAndPaymasterAndData (policyId cfg) (entryPoint cfg)
       (deepHexlify resolved) (getDummySignature (account p)))
    = Fulfilled result ->
  exists (m : Middleware) (out : loc) (w' : World) (merged : Obj),
    customMiddleware (gasManager p config) = Some m
    /\ m struct w = (Fulfilled out, w')
    /\ heap w' !! out = Some (CObject merged)
    /\ merged = spread fields result
    /\ (forall k v, result !! k = Some v -> merged !! k = Some v)
    /\ (forall k, result !! k = None -> merged !! k = fields !! k).
Proof.
  intros Hcfg Hstruct Hres Hreq.
  eexists _, _, _, (spread fields result).
  split; [reflexivity |].
  split.
  { run_promise. rewrite Hcfg, Hstruct, Hres, Hreq. cbn [heap].
    rewrite Hstruct. reflexivity. }
  split; [apply lookup_insert_eq |].
  split; [reflexivity |].
  split; [intros k v; apply spread_override | intros k; apply spread_keep].
Qed.

(** C3: the gas estimator installed by withAlchemyGasManager returns
    {callGasLimit: 0, verificationGasLimit: 0, preVerificationGas: 0} and
    the fee-data getter it installs returns {maxFeePerGas: 0,
    maxPriorityFeePerGas: 0}, from every provider, struct and store. *)
Theorem gas_and_fee_stages_return_zero
    (p : SmartAccountProvider) (config struct : loc) (w : World) :
  (exists (out : loc) (w' : World),
      gasEstimator (gasManager p config) struct w = (Fulfilled out, w')
      /\ heap w' !! out =
          Some (CObject {[ "callGasLimit" := VBigInt 0;
                           "verificationGasLimit" := VBigInt 0;
                           "preVerificationGas" := VBigInt 0 ]}))
  /\ (exists (out : loc) (w' : World),
      feeDataGetter (gasManager p config) struct w = (Fulfilled out, w')
      /\ heap w' !! out =
          Some (CObject {[ "maxFeePerGas" := VBigInt 0;
                           "maxPriorityFeePerGas" := VBigInt 0 ]})).
Proof.
  split; eexists _, _; (split; [reflexivity |]).
  - cbn [heap snd fst]. rewrite lookup_insert_eq. do 2 f_equal.
  - cbn [heap snd fst]. rewrite lookup_insert_eq. do 2 f_equal.
Qed.

(** The dummy middleware is one object literal, chosen by the chain id of
    the configuration at the time of the call. *)
Lemma dummy_run (config struct : loc) (w : World) (cfg : AlchemyPaymasterConfig) :
  heap w !! config = Some (CConfig cfg) ->
  dummyPaymasterDataMiddleware (paymaster config) struct w =
  newObject
    {[ "paymasterAndData" :=
         VString (if decide (id (chain (provider cfg)) = 1
                             ∨ id (chain (provider cfg)) = 137
                             ∨ id (chain (provider cfg)) = 42161)
                  then knownChainPlaceholder else defaultPlaceholder) ]} w.
Proof.
  intros Hcfg. run_promise. rewrite Hcfg, switch_chain_id.
  by case_decide.
Qed.

(** C2, as the code has it: for chain id 1, 137 and 42161 the dummy
    middleware returns one and the same fixed paymasterAndData placeholder,
    for every other chain id it returns the default placeholder, and the two
    placeholders differ. *)
Theorem dummy_placeholder_by_chain
    (config struct : loc) (w : World) (cfg : AlchemyPaymasterConfig) :
  heap w !! config = Some (CConfig cfg) ->
  exists (out : loc) (w' : World) (v : Hex),
    dummyPaymasterDataMiddleware (paymaster config) struct w = (Fulfilled out, w')
    /\ heap w' !! out = Some (CObject {[ "paymasterAndData" := VString v ]})
    /\ (id (chain (provider cfg)) ∈ [1; 137; 42161] -> v = knownChainPlaceholder)
    /\ (id (chain (provider cfg)) ∉ [1; 137; 42161] -> v = defaultPlaceholder)
    /\ knownChainPlaceholder ≠ defaultPlaceholder.
Proof.
  intros Hcfg. rewrite (dummy_run _ _ _ _ Hcfg).
  eexists _, _, _. split; [reflexivity |].
  split; [apply lookup_insert_eq |].
  split; [| split; [| discriminate]].
  - intros Hin. rewrite decide_True; [done |].
    rewrite !elem_of_cons, elem_of_nil in Hin. tauto.
  - intros Hnin. rewrite decide_False; [done |].
    rewrite !elem_of_cons, elem_of_nil in Hnin. tauto.
Qed.

(** C4: the call each remote middleware sends carries, as userOperation,
    deepHexlify of the resolved fields of the struct as the store holds it
    when the middleware runs; the combined method carries the dummy signature
    of the account of the provider besides. *)
Theorem request_carries_current_projection
    (p : SmartAccountProvider) (config struct : loc) (w : World)
    (cfg : AlchemyPaymasterConfig) (fields resolved : Obj) :
  heap w !! config = Some (CConfig cfg) ->
  heap w !! struct = Some (CObject fields) ->
  resolveProperties fields = Fulfilled resolved ->
  sent (paymasterDataMiddleware (paymaster config) struct w).2 =
    (sent w ++ [alchemy_requestPaymasterAndData
                 (policyId cfg) (entryPoint cfg) (deepHexlify resolved)])%list
  /\ exists m : Middleware,
      customMiddleware (gasManager p config) = Some m
      /\ sent (m struct w).2 =
          (sent w ++ [alchemy_requestGasAndPaymasterAndData
                       (policyId cfg) (entryPoint cfg) (deepHexlify resolved)
                       (getDummySignature (account p))])%list.
Proof.
  intros Hcfg Hstruct Hres. split; [| eexists; split; [reflexivity |]].
  - run_promise. rewrite Hcfg, Hstruct, Hres.
    by destruct (request _ _ _).
  - run_promise. rewrite Hcfg, Hstruct, Hres.
    destruct (request _ _ _); [| done].
    cbn [heap]. by rewrite Hstruct.
Qed.

(** C5: when the request rejects, each remote middleware rejects with the
    error of the request; the one call is all that was sent and the store is
    as it was, so nothing was retried and no record was built. *)
Theorem request_rejection_propagates
    (p : SmartAccountProvider) (config struct : loc) (w : World)
    (cfg : AlchemyPaymasterConfig) (fields resolved : Obj) (e : Error) :
  heap w !! config = Some (CConfig cfg) ->
  heap w !! struct = Some (CObject fields) ->
  resolveProperties fields = Fulfilled resolved ->
  (request (provider cfg) (sent w)
     (alchemy_requestPaymasterAndData
        (policyId cfg) (entryPoint cfg) (deepHexlify resolved)) = Rejected e ->
   paymasterDataMiddleware (paymaster config) struct w =
     (Rejected e,
      mkWorld (heap w)
        ((sent w ++ [alchemy_requestPaymasterAndData
                      (policyId cfg) (entryPoint cfg) (deepHexlify resolved)])%list)))
  /\ (request (provider cfg) (sent w)
        (alchemy_requestGasAndPaymasterAndData
           (policyId cfg) (entryPoint cfg) (deepHexlify resolved)
           (getDummySignature (account p))) = Rejected e ->
      exists m : Middleware,
        customMiddleware (gasManager p config) = Some m
        /\ m struct w =
            (Rejected e,
             mkWorld (heap w)
               ((sent w ++ [alchemy_requestGasAndPaymasterAndData
                             (policyId cfg) (entryPoint cfg) (deepHexlify resolved)
                             (getDummySignature (account p))])%list))).
Proof.
  intros Hcfg Hstruct Hres. split; intros Hreq.
  - run_promise. by rewrite Hcfg, Hstruct, Hres, Hreq.
  - eexists; split; [reflexivity |].
    run_promise. by rewrite Hcfg, Hstruct, Hres, Hreq.
Qed.

(** C6: the placeholder the dummy middleware returns has the same length on
    every branch of the chain-id dispatch: 236 characters, the 0x prefix and
    117 bytes, for the known chains and for the default alike. *)
Theorem dummy_placeholder_length
    (config struct : loc) (w : World) (cfg : AlchemyPaymasterConfig) :
  heap w !! config = Some (CConfig cfg) ->
  String.length knownChainPlaceholder = String.length defaultPlaceholder
  /\ exists (out : loc) (w' : World) (v : Hex),
      dummyPaymasterDataMiddleware (paymaster config) struct w = (Fulfilled out, w')
      /\ heap w' !! out = Some (CObject {[ "paymasterAndData" := VString v ]})
      /\ String.length v = (2 + 2 * 117)%nat.
Proof.
  intros Hcfg. split; [reflexivity |].
  rewrite (dummy_run _ _ _ _ Hcfg).
  eexists _, _, _. split; [reflexivity |].
  split; [apply lookup_insert_eq |].
  by case_decide.
Qed.

(** C7: the dummy middleware fulfils for every chain id and every struct
    reference, with a record that holds a paymasterAndData string; a chain
    id it does not know takes the default branch. *)
Theorem dummy_never_rejects
    (config struct : loc) (w : World) (cfg : AlchemyPaymasterConfig) :
  heap w !! config = Some (CConfig cfg) ->
  exists (out : loc) (w' : World) (o : Obj) (v : Hex),
    dummyPaymasterDataMiddleware (paymaster config) struct w = (Fulfilled out, w')
    /\ heap w' !! out = Some (CObject o)
    /\ o !! "paymasterAndData" = Some (VString v).
Proof.
  intros Hcfg. rewrite (dummy_run _ _ _ _ Hcfg).
  eexists _, _, _, _. split; [reflexivity |].
  split; [apply lookup_insert_eq |].
  apply lookup_singleton_eq.
Qed.

(** C8: on a fulfilled request, paymasterDataMiddleware returns a record
    whose only field is paymasterAndData, holding what the response holds
    there: the value the response has under paymasterAndData is the value of
    the record, and no other field of the response is in it; spread over any
    record it sets paymasterAndData to the value of the response and leaves
    every other field as it is. *)
Theorem paymaster_patch_single_field
    (config struct : loc) (w : World)
    (cfg : AlchemyPaymasterConfig) (fields resolved result : Obj) :
  heap w !! config = Some (CConfig cfg) ->
  heap w !! struct = Some (CObject fields) ->
  resolveProperties fields = Fulfilled resolved ->
  request (provider cfg) (sent w)
    (alchemy_requestPaymasterAndData
       (policyId cfg) (entryPoint cfg) (deepHexlify resolved)) = Fulfilled result ->
  exists (out : loc) (w' : World) (patch : Obj),
    paymasterDataMiddleware (paymaster config) struct w = (Fulfilled out, w')
    /\ heap w' !! out = Some (CObject patch)
    /\ patch = {[ "paymasterAndData" := getProp result "paymasterAndData" ]}
    /\ dom patch = {[ "paymasterAndData" ]}
    /\ (forall (acc : Obj) (k : string),
          k ≠ "paymasterAndData" -> spread acc patch !! k = acc !! k)
    /\ (forall v : Value,
          result !! "paymasterAndData" = Some v ->
          patch !! "paymasterAndData" = Some v)
    /\ (forall k : string, k ≠ "paymasterAndData" -> patch !! k = None)
    /\ (forall (acc : Obj) (v : Value),
          result !! "paymasterAndData" = Some v ->
          spread acc patch !! "paymasterAndData" = Some v).
Proof.
  intros Hcfg Hstruct Hres Hreq.
  eexists _, _, _. split.
  { run_promise. rewrite Hcfg, Hstruct, Hres, Hreq. reflexivity. }
  split; [apply lookup_insert_eq |].
  split; [reflexivity |].
  split; [apply dom_singleton_L |].
  split.
  { intros acc k Hk. apply spread_keep. by apply lookup_singleton_ne. }
  assert (Hvalue : forall v : Value,
             result !! "paymasterAndData" = Some v ->
             ({[ "paymasterAndData" := getProp result "paymasterAndData" ]} : Obj)
               !! "paymasterAndData" = Some v).
  { intros v Hv. rewrite lookup_singleton_eq. unfold getProp. by rewrite Hv. }
  split; [exact Hvalue |].
  split; [intros k Hk; by apply lookup_singleton_ne |].
  intros acc v Hv. by apply spread_override, Hvalue.
Qed.

(** C9: under the same chain id, two runs of the dummy middleware on any two
    structs in any two stores return records that are equal. *)
Theorem dummy_independent_of_struct
    (config1 config2 struct1 struct2 : loc) (w1 w2 : World)
    (cfg1 cfg2 : AlchemyPaymasterConfig) :
  heap w1 !! config1 = Some (CConfig cfg1) ->
  heap w2 !! config2 = Some (CConfig cfg2) ->
  id (chain (provider cfg1)) = id (chain (provider cfg2)) ->
  exists (out1 out2 : loc) (w1' w2' : World) (o : Obj),
    dummyPaymasterDataMiddleware (paymaster config1) struct1 w1 = (Fulfilled out1, w1')
    /\ dummyPaymasterDataMiddleware (paymaster config2) struct2 w2 = (Fulfilled out2, w2')
    /\ heap w1' !! out1 = Some (CObject o)
    /\ heap w2' !! out2 = Some (CObject o).
Proof.
  intros Hcfg1 Hcfg2 Hid.
  rewrite (dummy_run _ _ _ _ Hcfg1), (dummy_run _ _ _ _ Hcfg2), Hid.
  eexists _, _, _, _, _. split; [reflexivity |]. split; [reflexivity |].
  split; apply lookup_insert_eq.
Qed.

(** C10: each middleware of the module leaves the store intact: the struct,
    the configuration and every other cell are after the run what they were
    before it, the record returned is a new one, and a run that rejects
    leaves the store as it was. *)
Theorem middlewares_leave_store_intact
    (p : SmartAccountProvider) (config struct : loc) :
  leavesStoreIntact (paymasterDataMiddleware (paymaster config) struct)
  /\ leavesStoreIntact (dummyPaymasterDataMiddleware (paymaster config) struct)
  /\ exists m : Middleware,
      customMiddleware (gasManager p config) = Some m
      /\ leavesStoreIntact (m struct).
Proof.
  split; [| split; [| eexists; split; [reflexivity |]]]; intros w.
  - run_promise.
    destruct (heap w !! config) as [[|cfg]|]; try apply rejected_intact_same.
    destruct (heap w !! struct) as [[fields|]|]; try apply rejected_intact_same.
    destruct (resolveProperties fields); [| apply rejected_intact_same].
    destruct (request _ _ _); [| apply rejected_intact].
    by apply newObject_intact.
  - run_promise.
    destruct (heap w !! config) as [[|cfg]|]; try apply rejected_intact_same.
    rewrite switch_chain_id. destruct w. case_decide; by apply newObject_intact.
  - run_promise.
    destruct (heap w !! config) as [[|cfg]|]; try apply rejected_intact_same.
    destruct (heap w !! struct) as [[fields|]|] eqn:Hstruct;
      try apply rejected_intact_same.
    destruct (resolveProperties fields); [| apply rejected_intact_same].
    destruct (request _ _ _); [| apply rejected_intact].
    cbn [heap]. rewrite Hstruct. by apply newObject_intact.
Qed.

End Properties.

(** * The properties on the sample run *)

Lemma custom_middleware_merges_result_witness :
  exists (m : Middleware) (out : loc) (w' : World) (merged : Obj),
    customMiddleware Sample.gasManager = Some m
    /\ m 2%positive (Sample.world (Sample.client 1) Sample.fields) = (Fulfilled out, w')
    /\ heap w' !! out = Some (CObject merged)
    /\ merged = spread Sample.fields Sample.gasAndPaymasterResult
    /\ (forall k v, Sample.gasAndPaymasterResult !! k = Some v -> merged !! k = Some v)
    /\ (forall k, Sample.gasAndPaymasterResult !! k = None -> merged !! k = Sample.fields !! k).
Proof.
  apply (custom_middleware_merges_result utils_resolveProperties utils_deepHexlify
           Sample.smartAccountProvider 1%positive 2%positive
           (Sample.world (Sample.client 1) Sample.fields)
           (Sample.config (Sample.client 1)) Sample.fields Sample.resolved).
  - vm_compute. reflexivity.
  - vm_compute. reflexivity.
  - vm_compute. reflexivity.
  - vm_compute. reflexivity.
Defined.

(** The zeroed gas limit and fee of the struct are replaced, the sender and
    the deferred nonce are kept. *)
Example custom_middleware_sample :
  let merged := spread Sample.fields Sample.gasAndPaymasterResult in
  merged !! "callGasLimit" = Some (VString "0x3e8")
  /\ merged !! "maxFeePerGas" = Some (VString "0x10")
  /\ merged !! "paymasterAndData" = Some (VString "0xabc")
  /\ merged !! "nonce" = Some (VPending (VBigInt 7))
  /\ merged !! "sender" = Sample.fields !! "sender".
Proof. vm_compute. repeat split. Qed.

(** C2, as stated, fails: chain ids 1, 137 and 42161 take the same branch of
    the switch and get the same placeholder, so the three values are not
    pairwise distinct. *)
Lemma known_chain_placeholders_coincide :
  Sample.dummyPlaceholder 1 = Some (VString knownChainPlaceholder)
  /\ Sample.dummyPlaceholder 137 = Some (VString knownChainPlaceholder)
  /\ Sample.dummyPlaceholder 42161 = Some (VString knownChainPlaceholder)
  /\ ¬ (Sample.dummyPlaceholder 1 ≠ Sample.dummyPlaceholder 137
        ∧ Sample.dummyPlaceholder 1 ≠ Sample.dummyPlaceholder 42161
        ∧ Sample.dummyPlaceholder 137 ≠ Sample.dummyPlaceholder 42161).
Proof.
  repeat split; try (vm_compute; reflexivity).
  intros [Hne _]. apply Hne. vm_compute. reflexivity.
Qed.

Lemma dummy_placeholder_by_chain_witness :
  exists (out : loc) (w' : World) (v : Hex),
    dummyPaymasterDataMiddleware Sample.paymaster 2%positive
      (Sample.world (Sample.client 10) Sample.fields) = (Fulfilled out, w')
    /\ heap w' !! out = Some (CObject {[ "paymasterAndData" := VString v ]})
    /\ (10 ∈ [1; 137; 42161] -> v = knownChainPlaceholder)
    /\ (10 ∉ [1; 137; 42161] -> v = defaultPlaceholder)
    /\ knownChainPlaceholder ≠ defaultPlaceholder.
Proof.
  apply (dummy_placeholder_by_chain utils_resolveProperties utils_deepHexlify
           1%positive 2%positive (Sample.world (Sample.client 10) Sample.fields)
           (Sample.config (Sample.client 10))).
  vm_compute. reflexivity.
Defined.

Lemma request_carries_current_projection_witness :
  sent (paymasterDataMiddleware Sample.paymaster 2%positive
          (Sample.world (Sample.client 1) Sample.fields)).2 =
    [alchemy_requestPaymasterAndData "policy-1"
       "0x5FF137D4b0FDCD49DcA30c7CF57E578a026d2789"
       (utils_deepHexlify Sample.resolved)]
  /\ exists m : Middleware,
      customMiddleware Sample.gasManager = Some m
      /\ sent (m 2%positive (Sample.world (Sample.client 1) Sample.fields)).2 =
          [alchemy_requestGasAndPaymasterAndData "policy-1"
             "0x5FF137D4b0FDCD49DcA30c7CF57E578a026d2789"
             (utils_deepHexlify Sample.resolved)
             "0xfffffffffffffffffffffffffffffff0"].
Proof.
  apply (request_carries_current_projection utils_resolveProperties utils_deepHexlify
           Sample.smartAccountProvider 1%positive 2%positive
           (Sample.world (Sample.client 1) Sample.fields)
           (Sample.config (Sample.client 1)) Sample.fields Sample.resolved).
  - vm_compute. reflexivity.
  - vm_compute. reflexivity.
  - vm_compute. reflexivity.
Defined.

(** Two runs with an assignment to the struct in between: the second call
    carries the projection of the struct as it is then. *)
Example projection_recomputed :
  let w0 := Sample.world (Sample.client 1) Sample.fields in
  let w1 := (paymasterDataMiddleware Sample.paymaster 2%positive w0).2 in
  let w2 := (paymasterDataMiddleware Sample.paymaster 2%positive
               (assignProp 2%positive "callGasLimit" (VBigInt 1000) w1)).2 in
  (fun args => userOperationOf args !! "callGasLimit") <$> sent w2
  = [Some (VString "0x0"); Some (VString "0x3e8")].
Proof. vm_compute. reflexivity. Qed.

(** The nonce and the zeroed numbers go out in hexadecimal. *)
Example projection_sample :
  utils_deepHexlify Sample.resolved !! "nonce" = Some (VString "0x7")
  /\ utils_deepHexlify Sample.resolved !! "callGasLimit" = Some (VString "0x0")
  /\ utils_deepHexlify Sample.resolved !! "paymasterAndData" = Some (VString "0x").
Proof. vm_compute. repeat split. Qed.

Lemma request_rejection_propagates_witness :
  paymasterDataMiddleware Sample.paymaster 2%positive
    (Sample.world Sample.failingClient Sample.fields) =
    (Rejected Sample.timedOut,
     mkWorld (heap (Sample.world Sample.failingClient Sample.fields))
       [alchemy_requestPaymasterAndData "policy-1"
          "0x5FF137D4b0FDCD49DcA30c7CF57E578a026d2789"
          (utils_deepHexlify Sample.resolved)])
  /\ exists m : Middleware,
      customMiddleware Sample.gasManager = Some m
      /\ m 2%positive (Sample.world Sample.failingClient Sample.fields) =
          (Rejected Sample.timedOut,
           mkWorld (heap (Sample.world Sample.failingClient Sample.fields))
             [alchemy_requestGasAndPaymasterAndData "policy-1"
                "0x5FF137D4b0FDCD49DcA30c7CF57E578a026d2789"
                (utils_deepHexlify Sample.resolved)
                "0xfffffffffffffffffffffffffffffff0"]).
Proof.
  destruct (request_rejection_propagates utils_resolveProperties utils_deepHexlify
              Sample.smartAccountProvider 1%positive 2%positive
              (Sample.world Sample.failingClient Sample.fields)
              (Sample.config Sample.failingClient) Sample.fields Sample.resolved
              Sample.timedOut)
    as [Hpaymaster Hcustom].
  - vm_compute. reflexivity.
  - vm_compute. reflexivity.
  - vm_compute. reflexivity.
  - split; [apply Hpaymaster | apply Hcustom]; reflexivity.
Defined.

Lemma dummy_placeholder_length_witness :
  String.length knownChainPlaceholder = String.length defaultPlaceholder
  /\ exists (out : loc) (w' : World) (v : Hex),
      dummyPaymasterDataMiddleware Sample.paymaster 2%positive
        (Sample.world (Sample.client 137) Sample.fields) = (Fulfilled out, w')
      /\ heap w' !! out = Some (CObject {[ "paymasterAndData" := VString v ]})
      /\ String.length v = (2 + 2 * 117)%nat.
Proof.
  apply (dummy_placeholder_length utils_resolveProperties utils_deepHexlify
           1%positive 2%positive (Sample.world (Sample.client 137) Sample.fields)
           (Sample.config (Sample.client 137))).
  vm_compute. reflexivity.
Defined.

Lemma dummy_never_rejects_witness :
  exists (out : loc) (w' : World) (o : Obj) (v : Hex),
    dummyPaymasterDataMiddleware Sample.paymaster 5%positive
      (Sample.world (Sample.client 10) Sample.fields) = (Fulfilled out, w')
    /\ heap w' !! out = Some (CObject o)
    /\ o !! "paymasterAndData" = Some (VString v).
Proof.
  apply (dummy_never_rejects utils_resolveProperties utils_deepHexlify
           1%positive 5%positive (Sample.world (Sample.client 10) Sample.fields)
           (Sample.config (Sample.client 10))).
  vm_compute. reflexivity.
Defined.

Lemma paymaster_patch_single_field_witness :
  exists (out : loc) (w' : World) (patch : Obj),
    paymasterDataMiddleware Sample.paymaster 2%positive
      (Sample.world (Sample.client 1) Sample.fields) = (Fulfilled out, w')
    /\ heap w' !! out = Some (CObject patch)
    /\ dom patch = {[ "paymasterAndData" ]}
    /\ patch !! "paymasterAndData" = Some (VString "0xabc")
    /\ patch !! "callGasLimit" = None
    /\ spread Sample.fields patch !! "paymasterAndData" = Some (VString "0xabc")
    /\ spread Sample.fields patch !! "callGasLimit" = Some (VBigInt 0).
Proof.
  destruct (paymaster_patch_single_field utils_resolveProperties utils_deepHexlify
              1%positive 2%positive (Sample.world (Sample.client 1) Sample.fields)
              (Sample.config (Sample.client 1)) Sample.fields Sample.resolved
              {[ "paymasterAndData" := VString "0xabc" ]})
    as (out & w' & patch & Hrun & Hout & _ & Hdom & Hframe & Hvalue & Honly & Hmerged).
  - vm_compute. reflexivity.
  - vm_compute. reflexivity.
  - vm_compute. reflexivity.
  - vm_compute. reflexivity.
  - exists out, w', patch.
    split; [exact Hrun |].
    split; [exact Hout |].
    split; [exact Hdom |].
    split; [apply Hvalue; vm_compute; reflexivity |].
    split; [apply Honly; discriminate |].
    split; [apply Hmerged; vm_compute; reflexivity |].
    rewrite Hframe by discriminate. vm_compute. reflexivity.
Defined.

Lemma dummy_independent_of_struct_witness :
  exists (out1 out2 : loc) (w1' w2' : World) (o : Obj),
    dummyPaymasterDataMiddleware Sample.paymaster 2%positive
      (Sample.world (Sample.client 137) Sample.fields) = (Fulfilled out1, w1')
    /\ dummyPaymasterDataMiddleware Sample.paymaster 2%positive
         (Sample.world (Sample.client 137) Sample.otherFields) = (Fulfilled out2, w2')
    /\ heap w1' !! out1 = Some (CObject o)
    /\ heap w2' !! out2 = Some (CObject o).
Proof.
  apply (dummy_independent_of_struct utils_resolveProperties utils_deepHexlify
           1%positive 1%positive 2%positive 2%positive
           (Sample.world (Sample.client 137) Sample.fields)
           (Sample.world (Sample.client 137) Sample.otherFields)
           (Sample.config (Sample.client 137)) (Sample.config (Sample.client 137))).
  - vm_compute. reflexivity.
  - vm_compute. reflexivity.
  - reflexivity.
Defined.

(** * Further properties of the module *)

(** A run that ended before any call was sent. *)
Ltac no_call := exists []; split; [by rewrite app_nil_r | cbn; lia].

Section Runs.

Variable resolveProperties : Obj -> Settled Obj.
Variable deepHexlify : Obj -> Obj.

Local Abbreviation gasManager := (withAlchemyGasManager resolveProperties deepHexlify).
Local Abbreviation paymaster := (alchemyPaymasterAndDataMiddleware resolveProperties deepHexlify).

(** The run of the custom middleware on a fulfilled request, as an equation. *)
Lemma custom_run_fulfilled
    (p : SmartAccountProvider) (config struct : loc) (w : World)
    (cfg : AlchemyPaymasterConfig) (fields resolved result : Obj) (m : Middleware) :
  customMiddleware (gasManager p config) = Some m ->
  heap w !! config = Some (CConfig cfg) ->
  heap w !! struct = Some (CObject fields) ->
  resolveProperties fields = Fulfilled resolved ->
  request (provider cfg) (sent w)
    (alchemy_requestGasAndPaymasterAndData (policyId cfg) (entryPoint cfg)
       (deepHexlify resolved) (getDummySignature (account p)))
    = Fulfilled result ->
  m struct w =
    (Fulfilled (fresh (dom (heap w))),
     mkWorld (<[fresh (dom (heap w)) := CObject (spread fields result)]> (heap w))
       (sent w ++ [alchemy_requestGasAndPaymasterAndData (policyId cfg) (entryPoint cfg)
                     (deepHexlify resolved) (getDummySignature (account p))])%list).
Proof.
  intros [= <-] Hcfg Hstruct Hres Hreq.
  run_promise. rewrite Hcfg, Hstruct, Hres, Hreq. cbn [heap].
  by rewrite Hstruct.
Qed.

(** X1: when a field of the struct fails to resolve, each remote middleware
    rejects with the error of the resolution and the world is the one it
    started from: no call was sent and no record was built. *)
Theorem resolution_failure_sends_nothing
    (p : SmartAccountProvider) (config struct : loc) (w : World)
    (cfg : AlchemyPaymasterConfig) (fields : Obj) (e : Error) :
  heap w !! config = Some (CConfig cfg) ->
  heap w !! struct = Some (CObject fields) ->
  resolveProperties fields = Rejected e ->
  paymasterDataMiddleware (paymaster config) struct w = (Rejected e, w)
  /\ exists m : Middleware,
      customMiddleware (gasManager p config) = Some m
      /\ m struct w = (Rejected e, w).
Proof.
  intros Hcfg Hstruct Hres. split; [| eexists; split; [reflexivity |]].
  - run_promise. by rewrite Hcfg, Hstruct, Hres.
  - run_promise. by rewrite Hcfg, Hstruct, Hres.
Qed.

(** X2: the calls of a run.  The dummy middleware and the two zeroing stages
    send nothing; paymasterDataMiddleware and the custom middleware add at
    most one call to those sent before, whatever the store holds and however
    the run ends. *)
Theorem calls_per_run
    (p : SmartAccountProvider) (config struct : loc) (w : World) :
  sent (dummyPaymasterDataMiddleware (paymaster config) struct w).2 = sent w
  /\ sent (gasEstimator (gasManager p config) struct w).2 = sent w
  /\ sent (feeDataGetter (gasManager p config) struct w).2 = sent w
  /\ (exists calls : list RpcArgs,
        sent (paymasterDataMiddleware (paymaster config) struct w).2
        = (sent w ++ calls)%list
        /\ (length calls <= 1)%nat)
  /\ (exists (m : Middleware) (calls : list RpcArgs),
        customMiddleware (gasManager p config) = Some m
        /\ sent (m struct w).2 = (sent w ++ calls)%list
        /\ (length calls <= 1)%nat).
Proof.
  split; [| split; [reflexivity | split; [reflexivity | split]]].
  - run_promise.
    destruct (heap w !! config) as [[|cfg]|]; try reflexivity.
    rewrite switch_chain_id. by case_decide.
  - run_promise.
    destruct (heap w !! config) as [[|cfg]|]; try no_call.
    destruct (heap w !! struct) as [[fields|]|]; try no_call.
    destruct (resolveProperties fields); [| no_call].
    eexists [_]. split; [| cbn; lia].
    by destruct (request _ _ _).
  - cut (forall m : Middleware,
            customMiddleware (gasManager p config) = Some m ->
            exists calls : list RpcArgs,
              sent (m struct w).2 = (sent w ++ calls)%list
              /\ (length calls <= 1)%nat).
    { intros H. destruct (H _ eq_refl) as (calls & Hsent & Hlen).
      by eexists _, calls. }
    intros m [= <-]. run_promise.
    destruct (heap w !! config) as [[|cfg]|]; try no_call.
    destruct (heap w !! struct) as [[fields|]|] eqn:Hstruct; try no_call.
    destruct (resolveProperties fields); [| no_call].
    eexists [_]. split; [| cbn; lia].
    destruct (request _ _ _); [| reflexivity].
    cbn [heap]. by rewrite Hstruct.
Qed.

(** X3: a fulfilled response that holds no paymasterAndData.  The record
    paymasterDataMiddleware returns still has the field, holding undefined,
    so spread over a struct it replaces what the struct had there; the
    record the custom middleware returns keeps the value of the struct. *)
Theorem response_without_paymasterAndData
    (p : SmartAccountProvider) (config struct : loc) (w : World)
    (cfg : AlchemyPaymasterConfig) (fields resolved result result' : Obj) :
  heap w !! config = Some (CConfig cfg) ->
  heap w !! struct = Some (CObject fields) ->
  resolveProperties fields = Fulfilled resolved ->
  request (provider cfg) (sent w)
    (alchemy_requestPaymasterAndData
       (policyId cfg) (entryPoint cfg) (deepHexlify resolved)) = Fulfilled result ->
  result !! "paymasterAndData" = None ->
  request (provider cfg) (sent w)
    (alchemy_requestGasAndPaymasterAndData (policyId cfg) (entryPoint cfg)
       (deepHexlify resolved) (getDummySignature (account p))) = Fulfilled result' ->
  result' !! "paymasterAndData" = None ->
  (exists (out : loc) (w' : World) (patch : Obj),
      paymasterDataMiddleware (paymaster config) struct w = (Fulfilled out, w')
      /\ heap w' !! out = Some (CObject patch)
      /\ patch !! "paymasterAndData" = Some VUndefined
      /\ spread fields patch !! "paymasterAndData" = Some VUndefined)
  /\ (exists (m : Middleware) (out : loc) (w' : World) (merged : Obj),
        customMiddleware (gasManager p config) = Some m
        /\ m struct w = (Fulfilled out, w')
        /\ heap w' !! out = Some (CObject merged)
        /\ merged !! "paymasterAndData" = fields !! "paymasterAndData").
Proof.
  intros Hcfg Hstruct Hres Hreq Hnone Hreq' Hnone'. split.
  - eexists _, _, _. split.
    { run_promise. rewrite Hcfg, Hstruct, Hres, Hreq. reflexivity. }
    split; [apply lookup_insert_eq |].
    unfold getProp. rewrite Hnone. cbn [default].
    split; [apply lookup_singleton_eq |].
    apply spread_override, lookup_singleton_eq.
  - eexists _, _, _, _. split; [reflexivity |].
    split.
    { exact (custom_run_fulfilled p config struct w cfg fields resolved result' _
               eq_refl Hcfg Hstruct Hres Hreq'). }
    split; [apply lookup_insert_eq |].
    by apply spread_keep.
Qed.

(** X4: the custom middleware run on the record a run of it returned.  The
    second record is the first with the second response spread over it, so
    the latest response wins field by field and an equal response gives an
    equal record; the first record is still in the store as it was
    returned. *)
Theorem custom_middleware_rerun
    (p : SmartAccountProvider) (config struct : loc) (w : World)
    (cfg : AlchemyPaymasterConfig) (fields resolved result : Obj)
    (resolved' result' : Obj) :
  heap w !! config = Some (CConfig cfg) ->
  heap w !! struct = Some (CObject fields) ->
  resolveProperties fields = Fulfilled resolved ->
  request (provider cfg) (sent w)
    (alchemy_requestGasAndPaymasterAndData (policyId cfg) (entryPoint cfg)
       (deepHexlify resolved) (getDummySignature (account p)))
    = Fulfilled result ->
  resolveProperties (spread fields result) = Fulfilled resolved' ->
  request (provider cfg)
    (sent w ++ [alchemy_requestGasAndPaymasterAndData (policyId cfg) (entryPoint cfg)
                  (deepHexlify resolved) (getDummySignature (account p))])%list
    (alchemy_requestGasAndPaymasterAndData (policyId cfg) (entryPoint cfg)
       (deepHexlify resolved') (getDummySignature (account p)))
    = Fulfilled result' ->
  exists (m : Middleware) (out1 out2 : loc) (w1 w2 : World),
    customMiddleware (gasManager p config) = Some m
    /\ m struct w = (Fulfilled out1, w1)
    /\ m out1 w1 = (Fulfilled out2, w2)
    /\ heap w2 !! out2 = Some (CObject (spread (spread fields result) result'))
    /\ heap w2 !! out1 = Some (CObject (spread fields result))
    /\ out1 ≠ out2
    /\ (result' = result -> heap w2 !! out2 = heap w2 !! out1).
Proof.
  intros Hcfg Hstruct Hres Hreq Hres' Hreq'.
  set (out1 := fresh (dom (heap w))).
  set (call := alchemy_requestGasAndPaymasterAndData (policyId cfg) (entryPoint cfg)
                 (deepHexlify resolved) (getDummySignature (account p))) in *.
  set (w1 := mkWorld (<[out1 := CObject (spread fields result)]> (heap w))
               (sent w ++ [call])%list).
  assert (Hcfg1 : heap w1 !! config = Some (CConfig cfg)).
  { apply (newObject_frame (spread fields result) w config _ Hcfg). }
  assert (Hout1 : heap w1 !! out1 = Some (CObject (spread fields result))).
  { apply lookup_insert_eq. }
  assert (Hfresh : heap w1 !! fresh (dom (heap w1)) = None).
  { apply fresh_reference_unused. }
  eexists _, out1, (fresh (dom (heap w1))), w1, _.
  split; [reflexivity |].
  split.
  { exact (custom_run_fulfilled p config struct w cfg fields resolved result _
             eq_refl Hcfg Hstruct Hres Hreq). }
  split.
  { exact (custom_run_fulfilled p config out1 w1 cfg (spread fields result)
             resolved' result' _ eq_refl Hcfg1 Hout1 Hres' Hreq'). }
  cbn [heap].
  assert (Hne : out1 ≠ fresh (dom (heap w1))).
  { intros Heq. rewrite <- Heq in Hfresh. by rewrite Hout1 in Hfresh. }
  split; [apply lookup_insert_eq |].
  split; [by rewrite lookup_insert_ne |].
  split; [done |].
  intros ->. rewrite lookup_insert_eq, lookup_insert_ne by done.
  rewrite Hout1. do 2 f_equal. unfold spread.
  by rewrite (assoc_L (∪)), (idemp_L (∪)).
Qed.

End Runs.

Lemma resolution_failure_sends_nothing_witness :
  paymasterDataMiddleware Sample.paymaster 2%positive
    (Sample.world (Sample.client 1) Edge.failingFields)
  = (Rejected Edge.brokenNonce, Sample.world (Sample.client 1) Edge.failingFields)
  /\ exists m : Middleware,
      customMiddleware Sample.gasManager = Some m
      /\ m 2%positive (Sample.world (Sample.client 1) Edge.failingFields)
         = (Rejected Edge.brokenNonce, Sample.world (Sample.client 1) Edge.failingFields).
Proof.
  apply (resolution_failure_sends_nothing utils_resolveProperties utils_deepHexlify
           Sample.smartAccountProvider 1%positive 2%positive
           (Sample.world (Sample.client 1) Edge.failingFields)
           (Sample.config (Sample.client 1)) Edge.failingFields Edge.brokenNonce).
  - vm_compute. reflexivity.
  - vm_compute. reflexivity.
  - vm_compute. reflexivity.
Defined.

Lemma response_without_paymasterAndData_witness :
  (exists (out : loc) (w' : World) (patch : Obj),
      paymasterDataMiddleware Sample.paymaster 2%positive
        (Sample.world Edge.sparseClient Sample.fields) = (Fulfilled out, w')
      /\ heap w' !! out = Some (CObject patch)
      /\ patch !! "paymasterAndData" = Some VUndefined
      /\ spread Sample.fields patch !! "paymasterAndData" = Some VUndefined)
  /\ (exists (m : Middleware) (out : loc) (w' : World) (merged : Obj),
        customMiddleware Sample.gasManager = Some m
        /\ m 2%positive (Sample.world Edge.sparseClient Sample.fields) = (Fulfilled out, w')
        /\ heap w' !! out = Some (CObject merged)
        /\ merged !! "paymasterAndData" = Sample.fields !! "paymasterAndData").
Proof.
  apply (response_without_paymasterAndData utils_resolveProperties utils_deepHexlify
           Sample.smartAccountProvider 1%positive 2%positive
           (Sample.world Edge.sparseClient Sample.fields)
           (Sample.config Edge.sparseClient) Sample.fields Sample.resolved ∅ ∅).
  - vm_compute. reflexivity.
  - vm_compute. reflexivity.
  - vm_compute. reflexivity.
  - vm_compute. reflexivity.
  - vm_compute. reflexivity.
  - vm_compute. reflexivity.
  - vm_compute. reflexivity.
Defined.

Lemma custom_middleware_rerun_witness :
  exists (m : Middleware) (out1 out2 : loc) (w1 w2 : World),
    customMiddleware Sample.gasManager = Some m
    /\ m 2%positive (Sample.world Edge.changingClient Sample.fields) = (Fulfilled out1, w1)
    /\ m out1 w1 = (Fulfilled out2, w2)
    /\ heap w2 !! out2
       = Some (CObject (spread (spread Sample.fields Edge.firstResult) Edge.laterResult))
    /\ heap w2 !! out1 = Some (CObject (spread Sample.fields Edge.firstResult))
    /\ out1 ≠ out2
    /\ (Edge.laterResult = Edge.firstResult -> heap w2 !! out2 = heap w2 !! out1).
Proof.
  eapply (custom_middleware_rerun utils_resolveProperties utils_deepHexlify
            Sample.smartAccountProvider 1%positive 2%positive
            (Sample.world Edge.changingClient Sample.fields)
            (Sample.config Edge.changingClient) Sample.fields Sample.resolved
            Edge.firstResult).
  - vm_compute. reflexivity.
  - vm_compute. reflexivity.
  - vm_compute. reflexivity.
  - vm_compute. reflexivity.
  - vm_compute. reflexivity.
  - vm_compute. reflexivity.
Defined.

(** On the rerun the later response wins where both set a field, the field
    only the first response set stays, and so does the sender of the struct. *)
Example rerun_sample :
  let merged := spread (spread Sample.fields Edge.firstResult) Edge.laterResult in
  merged !! "callGasLimit" = Some (VString "0x7d0")
  /\ merged !! "maxFeePerGas" = Some (VString "0x10")
  /\ merged !! "paymasterAndData" = Some (VString "0xabc")
  /\ merged !! "sender" = Sample.fields !! "sender".
Proof. vm_compute. repeat split. Qed.
